(** * The e-Paper N-API addon (src/addon.cpp), embedded in Rocq

    The addon is a thin binding between a JavaScript call surface and the
    vendor driver of a 7.3 inch e-Paper panel.  The embedding follows the
    C++ source function by function:

    - JavaScript values are an inductive type; a JavaScript number carries
      an IEEE-754 binary64 datum ([spec_float] of the Standard Library);
    - the C integer types are [Z] with their wrap-around written out;
    - every callback is a computation in a small state monad over a
      [World]: the exception pending in the N-API environment and the log
      of the calls made into the vendor driver;
    - the vendor header (panel geometry, colour codes) and the status that
      the hardware reports are not part of the repository: they are
      variables of the section that holds the callbacks. *)

From Stdlib Require Import ZArith Lia Strings.Byte DecimalString SpecFloat.
From stdpp Require Import gmap strings list fin_maps.

#[local] Open Scope Z_scope.
#[local] Set Warnings "-register-all,-clear-no-such-hyp".

(** ** Fixed-width C integers *)

Module C.

(** Conversion of an integer value to [uint32_t]. *)
Definition to_uint32 (z : Z) : Z := z mod 2 ^ 32.

(** Conversion of an integer value to [uint8_t]. *)
Definition to_uint8 (z : Z) : Z := z mod 2 ^ 8.

(** [std::to_string] on an unsigned value. *)
Definition to_string (z : Z) : string :=
  NilZero.string_of_uint (N.to_uint (Z.to_N z)).

End C.

(** ** JavaScript numbers *)

Module Number.

(** The integer part of a double, rounding towards zero; the
    non-finite values and the zeros give 0, as in the first steps of
    ECMAScript's ToUint32. *)
Definition truncate (d : spec_float) : Z :=
  match d with
  | S754_finite s m e =>
      let magnitude :=
        match e with
        | Zneg k => Z.shiftr (Zpos m) (Zpos k)
        | _ => Z.shiftl (Zpos m) e
        end in
      cond_Zopp s magnitude
  | _ => 0
  end.

(** [Napi::Number::Uint32Value]: ToUint32 of the double. *)
Definition Uint32Value (d : spec_float) : Z := truncate d mod 2 ^ 32.

(** Conversion of a C integer to [double] (round to nearest even), as
    performed when an integer is passed to [Napi::Number::New]. *)
Definition of_Z (z : Z) : spec_float := binary_normalize 53 1024 z 0 false.

(** [has_value d z]: the double [d] is finite and its value is exactly
    the integer [z]. *)
Definition has_value (d : spec_float) (z : Z) : Prop :=
  match d with
  | S754_zero _ => z = 0
  | S754_finite s m (Zneg k) => cond_Zopp s (Zpos m) = z * 2 ^ Zpos k
  | S754_finite s m e => cond_Zopp s (Zpos m) * 2 ^ e = z
  | _ => False
  end.

End Number.

(** ** JavaScript values and the N-API call boundary *)

(** The native functions that the addon registers. *)
Inductive NativeFunction :=
| FnInit | FnClear | FnShow7Block | FnShow | FnDisplay | FnSleep | FnExit
| FnGetWidth | FnGetHeight | FnGetBufferSize.

Inductive JsValue :=
| JsUndefined
| JsNull
| JsBoolean (b : bool)
| JsNumber (d : spec_float)
| JsString (s : string)
| JsBuffer (data : list byte)
| JsFunction (f : NativeFunction)
| JsObject (props : gmap string JsValue).

Definition IsNumber (v : JsValue) : bool :=
  match v with JsNumber _ => true | _ => false end.

Definition IsBuffer (v : JsValue) : bool :=
  match v with JsBuffer _ => true | _ => false end.

(** [Napi::Number::New(env, n)] for an integer [n]. *)
Definition Number_New (n : Z) : JsValue := JsNumber (Number.of_Z n).

(** [v.As<Napi::Number>().Uint32Value()]; called on numbers only. *)
Definition As_Number_Uint32Value (v : JsValue) : Z :=
  match v with JsNumber d => Number.Uint32Value d | _ => 0 end.

(** [v.As<Napi::Buffer<uint8_t>>()]: the bytes behind the buffer. *)
Definition As_Buffer (v : JsValue) : list byte :=
  match v with JsBuffer data => data | _ => [] end.

(** [Napi::CallbackInfo]: the arguments of one call. *)
Record CallbackInfo := { arguments : list JsValue }.

Definition Length (info : CallbackInfo) : Z :=
  Z.of_nat (length (arguments info)).

(** [info[i]]: an index past the arguments reads [undefined]. *)
Definition arg (info : CallbackInfo) (i : nat) : JsValue :=
  nth i (arguments info) JsUndefined.

(** [Napi::Error] and [Napi::TypeError]. *)
Inductive ErrorClass := Error | TypeError.

Record JsException := { exn_class : ErrorClass; exn_message : string }.

Definition Error_New (msg : string) : JsException :=
  {| exn_class := Error; exn_message := msg |}.

Definition TypeError_New (msg : string) : JsException :=
  {| exn_class := TypeError; exn_message := msg |}.

(** ** The vendor driver, seen from the addon *)

Inductive DriverCall :=
| DEV_Module_Init_called
| EPD_7IN3E_Init_called
| EPD_7IN3E_Clear_called (color : Z)
| EPD_7IN3E_Show7Block_called
| EPD_7IN3E_Show_called
| EPD_7IN3E_Display_called (image : list byte)
| EPD_7IN3E_Sleep_called
| DEV_Module_Exit_called.

(** The state that a callback can observe or change. *)
Record World := {
  pending_exception : option JsException;
  driver_calls : list DriverCall   (* oldest call first *)
}.

Definition M (A : Type) : Type := World -> A * World.

Definition ret {A} (a : A) : M A := fun w => (a, w).

Definition bind {A B} (m : M A) (k : A -> M B) : M B :=
  fun w => let (a, w') := m w in k a w'.

Notation "x <- m ;; k" := (bind m (fun x => k))
  (at level 100, m at next level, right associativity).
Notation "m ;; k" := (bind m (fun _ => k))
  (at level 100, right associativity).

(** [e.ThrowAsJavaScriptException()]: the exception becomes pending in the
    environment, and the C++ function goes on. *)
Definition ThrowAsJavaScriptException (e : JsException) : M unit :=
  fun w => (tt, {| pending_exception := Some e;
                   driver_calls := driver_calls w |}).

(** A call into the driver is appended to the log. *)
Definition driver (c : DriverCall) : M unit :=
  fun w => (tt, {| pending_exception := pending_exception w;
                   driver_calls := driver_calls w ++ [c] |}).

(** What JavaScript sees of a call. *)
Inductive Completion :=
| Returns (v : JsValue)
| Throws (e : JsException).

(** The N-API boundary.  A call from JavaScript enters the native function
    with no exception pending; when the function returns with an exception
    pending, the exception is thrown into JavaScript and the returned
    value is dropped.  Between calls only the driver log persists. *)
Definition call (f : CallbackInfo -> M JsValue) (info : CallbackInfo)
    (log : list DriverCall) : Completion * list DriverCall :=
  let (v, w') := f info {| pending_exception := None; driver_calls := log |} in
  match pending_exception w' with
  | Some e => (Throws e, driver_calls w')
  | None => (Returns v, driver_calls w')
  end.

(** A property read [o[key]] as JavaScript performs it. *)
Definition Get (o : JsValue) (key : string) : JsValue :=
  match o with
  | JsObject props => default JsUndefined (props !! key)
  | _ => JsUndefined
  end.

(** ** The callbacks of addon.cpp *)

Section Addon.

(** The vendor header EPD_7in3e.h: panel geometry and colour codes. *)
Variables EPD_7IN3E_WIDTH EPD_7IN3E_HEIGHT : Z.
Variables EPD_7IN3E_BLACK EPD_7IN3E_WHITE EPD_7IN3E_YELLOW : Z.
Variables EPD_7IN3E_RED EPD_7IN3E_BLUE EPD_7IN3E_GREEN : Z.

(** The status that the hardware reports to [DEV_Module_Init], given the
    driver calls made before it. *)
Variable module_init_status : list DriverCall -> Z.

Definition DEV_Module_Init : M Z :=
  fun w => (module_init_status (driver_calls w),
            snd (driver DEV_Module_Init_called w)).

Definition EPD_7IN3E_Init : M unit := driver EPD_7IN3E_Init_called.
Definition EPD_7IN3E_Clear (color : Z) : M unit :=
  driver (EPD_7IN3E_Clear_called color).
Definition EPD_7IN3E_Show7Block : M unit :=
  driver EPD_7IN3E_Show7Block_called.
Definition EPD_7IN3E_Show : M unit := driver EPD_7IN3E_Show_called.
Definition EPD_7IN3E_Display (image : list byte) : M unit :=
  driver (EPD_7IN3E_Display_called image).
Definition EPD_7IN3E_Sleep : M unit := driver EPD_7IN3E_Sleep_called.
Definition DEV_Module_Exit : M unit := driver DEV_Module_Exit_called.

Definition Init (info : CallbackInfo) : M JsValue :=
  status <- DEV_Module_Init ;;
  if negb (status =? 0) then
    ThrowAsJavaScriptException
      (Error_New "Failed to initialize e-Paper module") ;;
    ret JsNull
  else
    EPD_7IN3E_Init ;;
    ret JsNull.

Definition Clear (info : CallbackInfo) : M JsValue :=
  if Length info <? 1 then
    ThrowAsJavaScriptException
      (TypeError_New "Wrong number of arguments") ;;
    ret JsNull
  else if negb (IsNumber (arg info 0)) then
    ThrowAsJavaScriptException (TypeError_New "Expected number") ;;
    ret JsNull
  else
    let color := C.to_uint8 (As_Number_Uint32Value (arg info 0)) in
    EPD_7IN3E_Clear color ;;
    ret JsNull.

Definition Show7Block (info : CallbackInfo) : M JsValue :=
  EPD_7IN3E_Show7Block ;; ret JsNull.

Definition Show (info : CallbackInfo) : M JsValue :=
  EPD_7IN3E_Show ;; ret JsNull.

(** The size computed at lines 72-74 and again at lines 114-116:
    the conditional is evaluated on [int] operands (C division truncates)
    and the results are stored in [uint32_t] variables. *)
Definition expected_size : Z :=
  let width :=
    C.to_uint32 (if Z.rem EPD_7IN3E_WIDTH 2 =? 0
                 then Z.quot EPD_7IN3E_WIDTH 2
                 else Z.quot EPD_7IN3E_WIDTH 2 + 1) in
  let height := C.to_uint32 EPD_7IN3E_HEIGHT in
  C.to_uint32 (width * height).

Definition Display (info : CallbackInfo) : M JsValue :=
  if Length info <? 1 then
    ThrowAsJavaScriptException
      (TypeError_New "Wrong number of arguments") ;;
    ret JsNull
  else if negb (IsBuffer (arg info 0)) then
    ThrowAsJavaScriptException (TypeError_New "Expected buffer") ;;
    ret JsNull
  else
    let buffer := As_Buffer (arg info 0) in
    if negb (Z.of_nat (length buffer) =? expected_size) then
      ThrowAsJavaScriptException
        (Error_New ("Buffer size mismatch. Expected "
                      +:+ C.to_string expected_size +:+ " bytes")) ;;
      ret JsNull
    else
      EPD_7IN3E_Display buffer ;;
      ret JsNull.

Definition Sleep (info : CallbackInfo) : M JsValue :=
  EPD_7IN3E_Sleep ;; ret JsNull.

Definition Exit (info : CallbackInfo) : M JsValue :=
  DEV_Module_Exit ;; ret JsNull.

Definition GetWidth (info : CallbackInfo) : M JsValue :=
  ret (Number_New EPD_7IN3E_WIDTH).

Definition GetHeight (info : CallbackInfo) : M JsValue :=
  ret (Number_New EPD_7IN3E_HEIGHT).

Definition GetBufferSize (info : CallbackInfo) : M JsValue :=
  ret (Number_New expected_size).

(** [Napi::Object::Set] on an object under construction. *)
Definition Set_ (key : string) (v : JsValue)
    (o : gmap string JsValue) : gmap string JsValue :=
  <[key := v]> o.

Definition CreateColorConstants : gmap string JsValue :=
  let colors := ∅ in
  let colors := Set_ "BLACK" (Number_New EPD_7IN3E_BLACK) colors in
  let colors := Set_ "WHITE" (Number_New EPD_7IN3E_WHITE) colors in
  let colors := Set_ "YELLOW" (Number_New EPD_7IN3E_YELLOW) colors in
  let colors := Set_ "RED" (Number_New EPD_7IN3E_RED) colors in
  let colors := Set_ "BLUE" (Number_New EPD_7IN3E_BLUE) colors in
  let colors := Set_ "GREEN" (Number_New EPD_7IN3E_GREEN) colors in
  colors.

Definition InitAll (exports : gmap string JsValue) : gmap string JsValue :=
  let exports := Set_ "init" (JsFunction FnInit) exports in
  let exports := Set_ "clear" (JsFunction FnClear) exports in
  let exports := Set_ "show7Block" (JsFunction FnShow7Block) exports in
  let exports := Set_ "show" (JsFunction FnShow) exports in
  let exports := Set_ "display" (JsFunction FnDisplay) exports in
  let exports := Set_ "sleep" (JsFunction FnSleep) exports in
  let exports := Set_ "exit" (JsFunction FnExit) exports in
  let exports := Set_ "getWidth" (JsFunction FnGetWidth) exports in
  let exports := Set_ "getHeight" (JsFunction FnGetHeight) exports in
  let exports := Set_ "getBufferSize" (JsFunction FnGetBufferSize) exports in
  let exports := Set_ "Colors" (JsObject CreateColorConstants) exports in
  exports.

(** The C++ function behind each registered native function. *)
Definition native (f : NativeFunction) : CallbackInfo -> M JsValue :=
  match f with
  | FnInit => Init
  | FnClear => Clear
  | FnShow7Block => Show7Block
  | FnShow => Show
  | FnDisplay => Display
  | FnSleep => Sleep
  | FnExit => Exit
  | FnGetWidth => GetWidth
  | FnGetHeight => GetHeight
  | FnGetBufferSize => GetBufferSize
  end.

(** The process that has loaded the addon: the exports object that
    [InitAll] filled, and the hardware behind the driver. *)
Record Process := {
  exports : gmap string JsValue;
  hardware : list DriverCall
}.

(** Loading the module: node hands a fresh object to [InitAll]. *)
Definition load (log : list DriverCall) : Process :=
  {| exports := InitAll ∅; hardware := log |}.

(** One call of a native function from JavaScript. *)
Definition invoke (f : NativeFunction) (info : CallbackInfo) (p : Process)
    : Completion * Process :=
  let (c, log') := call (native f) info (hardware p) in
  (c, {| exports := exports p; hardware := log' |}).

(** A JavaScript program, as far as the addon is concerned: the calls
    it makes to the native functions, in order. *)
Fixpoint run (calls : list (NativeFunction * CallbackInfo)) (p : Process)
    : Process :=
  match calls with
  | [] => p
  | (f, info) :: rest => run rest (snd (invoke f info p))
  end.

(** The JavaScript read [addon.Colors[key]]. *)
Definition read_color (p : Process) (key : string) : JsValue :=
  Get (default JsUndefined (exports p !! "Colors")) key.

End Addon.

(** ** The size formula of the specification *)

(** The ceiling of [w / 2]. *)
Definition ceil_half (w : Z) : Z := - ((- w) / 2).

(** The buffer size as the specification words it:
    [ceil(width/2) * height]. *)
Definition spec_buffer_size (width height : Z) : Z :=
  ceil_half width * height.

(** What the addon relies on about the geometry in the vendor header: both
    macros are non-negative [int] constants and the packed frame fits the
    [uint32_t] in which its size is computed. *)
Definition panel_geometry (width height : Z) : Prop :=
  0 <= width < 2 ^ 31 /\ 0 <= height < 2 ^ 31 /\
  spec_buffer_size width height < 2 ^ 32.

(** A call completes by returning the JavaScript number of value [n]. *)
Definition returns_integer (c : Completion) (n : Z) : Prop :=
  exists d, c = Returns (JsNumber d) /\ Number.has_value d n.

(** The call arguments [v0, v1, ...]. *)
Definition args (vs : list JsValue) : CallbackInfo := {| arguments := vs |}.

(** ** Properties of the driver log *)

(** A driver call whose argument is what the addon has checked: the image
    handed to the display routine has [size] bytes, and the colour handed
    to the clear routine fits a [uint8_t]. *)
Definition driver_call_ok (size : Z) (c : DriverCall) : Prop :=
  match c with
  | EPD_7IN3E_Display_called image => Z.of_nat (length image) = size
  | EPD_7IN3E_Clear_called color => 0 <= color <= 255
  | _ => True
  end.

(** Every panel init in the log comes right after a hardware init, and
    that hardware init reported status 0. *)
Definition panel_init_guarded (status : list DriverCall -> Z)
    (log : list DriverCall) : Prop :=
  forall i, log !! i = Some EPD_7IN3E_Init_called ->
    exists j, i = S j
      /\ log !! j = Some DEV_Module_Init_called
      /\ status (take j log) = 0.

(** The names under which [InitAll] registers something. *)
Definition exported_names : gset string :=
  {[ "init"; "clear"; "show7Block"; "show"; "display"; "sleep"; "exit";
     "getWidth"; "getHeight"; "getBufferSize"; "Colors" ]}.

(** The keys that [CreateColorConstants] sets, each with the macro whose
    value it stores (lines 122-127). *)
Definition color_codes (BLACK WHITE YELLOW RED BLUE GREEN : Z)
    : list (string * Z) :=
  [("BLACK", BLACK); ("WHITE", WHITE); ("YELLOW", YELLOW);
   ("RED", RED); ("BLUE", BLUE); ("GREEN", GREEN)].

(** Unfolds one call down to the state transformers it is made of. *)
Ltac step_call :=
  unfold call, bind, ret, ThrowAsJavaScriptException,
    EPD_7IN3E_Init, EPD_7IN3E_Clear, EPD_7IN3E_Show7Block, EPD_7IN3E_Show,
    EPD_7IN3E_Display, EPD_7IN3E_Sleep, DEV_Module_Exit, DEV_Module_Init,
    driver;
  cbn [fst snd pending_exception driver_calls].

(** ** Facts about the conversions between integers and doubles *)

(** A double has at most one integer value, and truncation finds it. *)
Lemma truncate_has_value d z : Number.has_value d z -> Number.truncate d = z.
Proof.
  destruct d as [s|s| |s m e]; cbn [Number.truncate Number.has_value];
    try easy.
  destruct e as [|p|k]; intros H.
  - rewrite Z.shiftl_0_r. rewrite Z.pow_0_r in H. lia.
  - rewrite Z.shiftl_mul_pow2 by lia.
    revert H. generalize (2 ^ Z.pos p). intros X H.
    destruct s; cbv [cond_Zopp] in *; lia.
  - rewrite Z.shiftr_div_pow2 by lia.
    assert (HX : 0 < 2 ^ Z.pos k) by (apply Z.pow_pos_nonneg; lia).
    revert H HX. generalize (2 ^ Z.pos k). intros X H HX.
    destruct s; cbv [cond_Zopp] in *.
    + replace (Z.pos m) with ((- z) * X) by lia.
      rewrite Z.div_mul by lia. lia.
    + rewrite H, Z.div_mul by lia. reflexivity.
Qed.

Lemma has_value_unique d z1 z2 :
  Number.has_value d z1 -> Number.has_value d z2 -> z1 = z2.
Proof.
  intros H1 H2.
  rewrite <- (truncate_has_value d z1 H1). now apply truncate_has_value.
Qed.

Lemma digits2_pos_bounds p :
  2 ^ (Zpos (digits2_pos p) - 1) <= Zpos p < 2 ^ Zpos (digits2_pos p).
Proof.
  assert (Hstep : forall q, Z.succ (Zpos q) - 1 = Z.succ (Zpos q - 1)) by lia.
  induction p as [p IH|p IH|]; cbn [digits2_pos].
  - rewrite Pos2Z.inj_succ, Hstep, !Z.pow_succ_r by lia. lia.
  - rewrite Pos2Z.inj_succ, Hstep, !Z.pow_succ_r by lia. lia.
  - change (2 ^ 0 <= 1 < 2 ^ 1). lia.
Qed.

Lemma digits2_pos_le_53 p : Zpos p < 2 ^ 53 -> Zpos (digits2_pos p) <= 53.
Proof.
  intros Hp. pose proof (digits2_pos_bounds p) as [Hlo _].
  destruct (Z_le_gt_dec (Zpos (digits2_pos p)) 53) as [|Hgt]; [assumption|].
  assert (2 ^ 53 <= 2 ^ (Zpos (digits2_pos p) - 1))
    by (apply Z.pow_le_mono_r; lia).
  lia.
Qed.

Lemma iter_xO_value p k : Zpos (Pos.iter xO p k) = Zpos p * 2 ^ Zpos k.
Proof.
  induction k as [|k IH] using Pos.peano_ind.
  - cbn [Pos.iter]. lia.
  - rewrite Pos.iter_succ, Pos2Z.inj_succ, Z.pow_succ_r by lia.
    rewrite Pos2Z.inj_xO, IH. lia.
Qed.

Lemma iter_xO_digits p k :
  digits2_pos (Pos.iter xO p k) = (digits2_pos p + k)%positive.
Proof.
  induction k as [|k IH] using Pos.peano_ind.
  - cbn [Pos.iter digits2_pos]. lia.
  - rewrite Pos.iter_succ. cbn [digits2_pos]. rewrite IH. lia.
Qed.

(** Rounding leaves a mantissa alone when it is already canonical. *)
Lemma binary_round_aux_canonical s m e :
  Zpos (digits2_pos m) + e - 53 = e -> -1074 <= e <= 971 ->
  binary_round_aux 53 1024 s (Zpos m) e loc_Exact = S754_finite s m e.
Proof.
  intros Hc He.
  assert (Hf : fexp 53 1024 (Zdigits2 (Zpos m) + e) - e = 0)
    by (unfold fexp, emin, Zdigits2; lia).
  unfold binary_round_aux, shr_fexp. rewrite Hf.
  cbn [shr shr_record_of_loc shr_m loc_of_shr_record round_nearest_even].
  rewrite Hf.
  cbn [shr shr_record_of_loc shr_m].
  replace (e <=? 1024 - 53) with true by (symmetry; apply Z.leb_le; lia).
  reflexivity.
Qed.

Lemma binary_round_small s p :
  Zpos p < 2 ^ 53 ->
  Number.has_value (binary_round 53 1024 s p 0) (cond_Zopp s (Zpos p)).
Proof.
  intros Hp. pose proof (digits2_pos_le_53 p Hp) as Hd.
  unfold binary_round, shl_align.
  destruct (fexp 53 1024 (Zpos (digits2_pos p) + 0) - 0) as [|k|k] eqn:Hk;
    unfold fexp, emin in Hk; try lia.
  - rewrite binary_round_aux_canonical by lia.
    cbn [Number.has_value]. rewrite Z.pow_0_r. lia.
  - replace (fexp 53 1024 (Zpos (digits2_pos p) + 0)) with (Zneg k)
      by (unfold fexp, emin; lia).
    rewrite binary_round_aux_canonical by (rewrite ?iter_xO_digits; lia).
    cbn [Number.has_value]. rewrite iter_xO_value.
    generalize (2 ^ Zpos k). intros X. destruct s; cbv [cond_Zopp]; lia.
Qed.

(** Every integer of magnitude below 2^53 converts to a double exactly. *)
Lemma of_Z_has_value z :
  - 2 ^ 53 < z < 2 ^ 53 -> Number.has_value (Number.of_Z z) z.
Proof.
  intros Hz. destruct z as [|p|p]; unfold Number.of_Z, binary_normalize.
  - reflexivity.
  - apply (binary_round_small false p). lia.
  - apply (binary_round_small true p). lia.
Qed.

(** ** Facts about the size computation *)

(** [ceil_half w] is the least integer [n] with [w <= 2 n]. *)
Lemma ceil_half_least w :
  w <= 2 * ceil_half w /\ forall n, w <= 2 * n -> ceil_half w <= n.
Proof.
  unfold ceil_half. split; [|intros n Hn];
    pose proof (Z.div_mod (- w) 2 ltac:(lia));
    pose proof (Z.mod_pos_bound (- w) 2 ltac:(lia)); lia.
Qed.

(** On a panel geometry the C computation neither truncates nor wraps. *)
Lemma expected_size_spec W H :
  panel_geometry W H -> expected_size W H = spec_buffer_size W H.
Proof.
  unfold panel_geometry, spec_buffer_size, expected_size, C.to_uint32.
  intros (HW & HH & Hfit).
  assert (Hc : (if Z.rem W 2 =? 0 then Z.quot W 2 else Z.quot W 2 + 1)
               = ceil_half W).
  { rewrite Z.rem_mod_nonneg, Z.quot_div_nonneg by lia.
    unfold ceil_half.
    pose proof (Z.div_mod W 2 ltac:(lia)).
    pose proof (Z.mod_pos_bound W 2 ltac:(lia)).
    pose proof (Z.div_mod (- W) 2 ltac:(lia)).
    pose proof (Z.mod_pos_bound (- W) 2 ltac:(lia)).
    destruct (Z.eqb_spec (W mod 2) 0); lia. }
  rewrite Hc.
  assert (0 <= ceil_half W < 2 ^ 31).
  { pose proof (ceil_half_least W) as [Hge Hle].
    specialize (Hle W). lia. }
  rewrite (Z.mod_small (ceil_half W)) by lia.
  rewrite (Z.mod_small H) by lia.
  apply Z.mod_small. nia.
Qed.

(** ** Facts about the call boundary *)

Lemma Length_nil : (Length (args []) <? 1) = true.
Proof. reflexivity. Qed.

Lemma Length_cons v rest : (Length (args (v :: rest)) <? 1) = false.
Proof. apply Z.ltb_ge. unfold Length, args. cbn [arguments length]. lia. Qed.

(** What [Display] does with a buffer, in terms of the size it computes. *)
Lemma Display_buffer W H data rest log :
  call (Display W H) (args (JsBuffer data :: rest)) log =
    if Z.of_nat (length data) =? expected_size W H
    then (Returns JsNull, log ++ [EPD_7IN3E_Display_called data])
    else (Throws (Error_New ("Buffer size mismatch. Expected "
                               +:+ C.to_string (expected_size W H)
                               +:+ " bytes")), log).
Proof.
  unfold call, Display. rewrite Length_cons.
  cbn [arg args arguments nth IsBuffer As_Buffer negb].
  destruct (Z.of_nat (length data) =? expected_size W H);
    cbn [negb]; step_call; reflexivity.
Qed.

(** Whatever the header holds, the length that [Display] accepts is the
    number that [GetBufferSize] returns. *)
Lemma Display_accepts_GetBufferSize W H info data rest log :
  returns_integer (fst (call (GetBufferSize W H) info log))
    (expected_size W H)
  /\ (call (Display W H) (args (JsBuffer data :: rest)) log =
        (Returns JsNull, log ++ [EPD_7IN3E_Display_called data])
      <-> Z.of_nat (length data) = expected_size W H).
Proof.
  split.
  - eexists. split; [reflexivity|]. apply of_Z_has_value.
    assert (0 <= expected_size W H < 2 ^ 32)
      by (apply Z.mod_pos_bound; lia).
    lia.
  - rewrite Display_buffer.
    destruct (Z.eqb_spec (Z.of_nat (length data)) (expected_size W H));
      split; easy.
Qed.

(** An 800 x 480 panel packs into 192000 bytes. *)
Lemma expected_size_800_480 : expected_size 800 480 = 192000.
Proof. reflexivity. Qed.

(** What [Clear] does with a number. *)
Lemma Clear_number d rest log :
  call Clear (args (JsNumber d :: rest)) log =
    (Returns JsNull,
     log ++ [EPD_7IN3E_Clear_called (Number.Uint32Value d mod 256)]).
Proof.
  unfold call, Clear. rewrite Length_cons.
  cbn [arg args arguments nth IsNumber As_Number_Uint32Value negb].
  step_call. reflexivity.
Qed.

(** What [Init] does, by the status of the hardware. *)
Lemma Init_call status info log :
  call (Init status) info log =
    if status log =? 0
    then (Returns JsNull,
          log ++ [DEV_Module_Init_called; EPD_7IN3E_Init_called])
    else (Throws (Error_New "Failed to initialize e-Paper module"),
          log ++ [DEV_Module_Init_called]).
Proof.
  unfold call, Init. step_call.
  destruct (status log =? 0); cbn [negb fst snd pending_exception driver_calls].
  - now rewrite <- app_assoc.
  - reflexivity.
Qed.

(** ** The claims *)

(** C1. On a panel geometry, [display()] called with a buffer as its
    first argument compares the buffer's length with
    [ceil(width/2) * height]: a different length fails with the
    size-mismatch error, which names the expected size, and makes no
    driver call; the exact length forwards the bytes of the buffer to the
    driver display routine and returns (the JavaScript [null]). *)
Theorem Display_checks_buffer_size W H data rest log :
  panel_geometry W H ->
  (Z.of_nat (length data) <> spec_buffer_size W H ->
   call (Display W H) (args (JsBuffer data :: rest)) log =
     (Throws (Error_New ("Buffer size mismatch. Expected "
                           +:+ C.to_string (spec_buffer_size W H)
                           +:+ " bytes")), log))
  /\
  (Z.of_nat (length data) = spec_buffer_size W H ->
   call (Display W H) (args (JsBuffer data :: rest)) log =
     (Returns JsNull, log ++ [EPD_7IN3E_Display_called data])).
Proof.
  intros Hgeo. rewrite Display_buffer, (expected_size_spec W H Hgeo).
  split; intros Hlen.
  - destruct (Z.eqb_spec (Z.of_nat (length data)) (spec_buffer_size W H));
      [contradiction|reflexivity].
  - rewrite Hlen, Z.eqb_refl. reflexivity.
Qed.

Lemma Display_checks_buffer_size_witness :
  panel_geometry 3 2 /\
  call (Display 3 2) (args [JsBuffer ["001"; "002"; "003"]%byte]) [] =
    (Throws (Error_New "Buffer size mismatch. Expected 4 bytes"), []) /\
  call (Display 3 2) (args [JsBuffer ["001"; "002"; "003"; "004"]%byte]) [] =
    (Returns JsNull,
     [EPD_7IN3E_Display_called ["001"; "002"; "003"; "004"]%byte]) /\
  panel_geometry 800 480 /\
  call (Display 800 480) (args [JsBuffer ["001"; "002"; "003"]%byte]) [] =
    (Throws (Error_New "Buffer size mismatch. Expected 192000 bytes"), []).
Proof.
  assert (Hsmall : panel_geometry 3 2) by (vm_compute; intuition congruence).
  assert (Hreal : panel_geometry 800 480)
    by (vm_compute; intuition congruence).
  split; [exact Hsmall|]. split; [|split; [|split; [exact Hreal|]]].
  - apply (Display_checks_buffer_size 3 2 _ [] [] Hsmall).
    vm_compute. congruence.
  - apply (Display_checks_buffer_size 3 2 _ [] [] Hsmall). reflexivity.
  - apply (Display_checks_buffer_size 800 480 _ [] [] Hreal).
    vm_compute. congruence.
Defined.

(** C2. [init()] throws exactly when [DEV_Module_Init] reports a
    non-zero status: the call then completes with the runtime error
    "Failed to initialize e-Paper module" and never with a value; on
    status zero the panel init follows the hardware init and the call
    returns (the JavaScript [null]). *)
Theorem Init_fails_iff_status_nonzero status info log :
  (status log <> 0 <->
   fst (call (Init status) info log) =
     Throws (Error_New "Failed to initialize e-Paper module"))
  /\
  (status log <> 0 <-> exists e, fst (call (Init status) info log) = Throws e)
  /\
  (status log = 0 <->
   call (Init status) info log =
     (Returns JsNull,
      log ++ [DEV_Module_Init_called; EPD_7IN3E_Init_called])).
Proof.
  rewrite Init_call.
  destruct (Z.eqb_spec (status log) 0) as [Hz|Hnz]; cbn [fst].
  - repeat split; try easy. intros [e He]. discriminate He.
  - repeat split; try easy. eauto.
Qed.

(** C3. On a panel geometry, [getBufferSize()] returns the number
    [ceil(w/2) * h] for the numbers [w] and [h] that [getWidth()] and
    [getHeight()] return, and [display()] accepts a buffer exactly when
    its length is that number. *)
Theorem GetBufferSize_is_ceil_half_width_times_height W H info log :
  panel_geometry W H ->
  (forall w h,
     returns_integer (fst (call (GetWidth W) info log)) w ->
     returns_integer (fst (call (GetHeight H) info log)) h ->
     returns_integer (fst (call (GetBufferSize W H) info log))
       (ceil_half w * h))
  /\ returns_integer (fst (call (GetWidth W) info log)) W
  /\ returns_integer (fst (call (GetHeight H) info log)) H
  /\ (forall data rest n,
        returns_integer (fst (call (GetBufferSize W H) info log)) n ->
        (call (Display W H) (args (JsBuffer data :: rest)) log =
           (Returns JsNull, log ++ [EPD_7IN3E_Display_called data])
         <-> Z.of_nat (length data) = n)).
Proof.
  intros Hgeo. pose proof Hgeo as (HW & HH & Hfit).
  assert (Hw : returns_integer (fst (call (GetWidth W) info log)) W).
  { eexists. split; [reflexivity|]. apply of_Z_has_value. lia. }
  assert (Hh : returns_integer (fst (call (GetHeight H) info log)) H).
  { eexists. split; [reflexivity|]. apply of_Z_has_value. lia. }
  assert (Hs : returns_integer (fst (call (GetBufferSize W H) info log))
                 (spec_buffer_size W H)).
  { eexists. split; [reflexivity|].
    rewrite (expected_size_spec W H Hgeo). apply of_Z_has_value.
    pose proof (ceil_half_least W) as [Hge _].
    unfold spec_buffer_size in *. nia. }
  assert (Huniq : forall c n1 n2,
            returns_integer c n1 -> returns_integer c n2 -> n1 = n2).
  { intros c n1 n2 (d1 & -> & H1) (d2 & [= <-] & H2).
    exact (has_value_unique d1 n1 n2 H1 H2). }
  split; [|split; [exact Hw|split; [exact Hh|]]].
  - intros w h Hw' Hh'.
    rewrite (Huniq _ _ _ Hw' Hw), (Huniq _ _ _ Hh' Hh). exact Hs.
  - intros data rest n Hn. rewrite (Huniq _ _ _ Hn Hs).
    rewrite Display_buffer, (expected_size_spec W H Hgeo).
    destruct (Z.eqb_spec (Z.of_nat (length data)) (spec_buffer_size W H));
      split; try easy.
Qed.

Lemma GetBufferSize_is_ceil_half_width_times_height_witness :
  panel_geometry 3 2 /\
  returns_integer (fst (call (GetBufferSize 3 2) (args []) [])) (ceil_half 3 * 2).
Proof.
  assert (Hgeo : panel_geometry 3 2) by (vm_compute; intuition congruence).
  split; [exact Hgeo|].
  destruct (GetBufferSize_is_ceil_half_width_times_height 3 2 (args []) [] Hgeo)
    as (Hsize & Hw & Hh & _).
  exact (Hsize 3 2 Hw Hh).
Defined.

(** The low byte of the unsigned 32-bit value of an integer is the low
    byte of the integer. *)
Lemma Uint32Value_low_byte d z :
  Number.has_value d z -> Number.Uint32Value d mod 256 = z mod 256.
Proof.
  intros Hv. unfold Number.Uint32Value.
  rewrite (truncate_has_value d z Hv).
  apply Z.mod_mod_divide. exists (2 ^ 24). reflexivity.
Qed.

(** C4, as the code has it.  [clear()] checks that its first argument is a
    number and makes no range check: a number of integer value [z] is
    forwarded to the driver clear routine as [z mod 256] and the call
    returns; so an integer in 0..255 is forwarded as it is, and an integer
    outside 0..255 is forwarded reduced modulo 256. *)
Theorem Clear_forwards_integer_modulo_256 d z rest log :
  Number.has_value d z ->
  call Clear (args (JsNumber d :: rest)) log =
    (Returns JsNull, log ++ [EPD_7IN3E_Clear_called (z mod 256)])
  /\
  (0 <= z <= 255 ->
   call Clear (args (JsNumber d :: rest)) log =
     (Returns JsNull, log ++ [EPD_7IN3E_Clear_called z])).
Proof.
  intros Hv. rewrite Clear_number, (Uint32Value_low_byte d z Hv).
  split; [reflexivity|].
  intros Hz. rewrite Z.mod_small by lia. reflexivity.
Qed.

Lemma Clear_forwards_integer_modulo_256_witness :
  Number.has_value (Number.of_Z 6) 6 /\
  call Clear (args [JsNumber (Number.of_Z 6)]) [] =
    (Returns JsNull, [EPD_7IN3E_Clear_called 6]).
Proof.
  assert (Hv : Number.has_value (Number.of_Z 6) 6) by reflexivity.
  split; [exact Hv|].
  apply (Clear_forwards_integer_modulo_256 (Number.of_Z 6) 6 [] [] Hv).
  lia.
Defined.

(** C4, as the claim states it, fails: 256 is a number outside 0..255, and
    [clear(256)] is not rejected; it returns, after the driver clear
    routine was called with colour 0. *)
Lemma Clear_256_is_not_rejected :
  Number.has_value (Number.of_Z 256) 256 /\
  ~ (0 <= 256 <= 255) /\
  call Clear (args [Number_New 256]) [] =
    (Returns JsNull, [EPD_7IN3E_Clear_called 0]).
Proof.
  split; [reflexivity|]. split; [lia|]. reflexivity.
Qed.

(** A fraction is cut as well: the double 1.5 (it is finite, and
    1.5 + 1.5 is the double 3) is forwarded as colour 1. *)
Lemma Clear_cuts_fraction :
  let d := S754_finite false 6755399441055744 (-52) in
  valid_binary 53 1024 d = true /\
  SFadd 53 1024 d d = Number.of_Z 3 /\
  call Clear (args [JsNumber d]) [] =
    (Returns JsNull, [EPD_7IN3E_Clear_called 1]).
Proof. repeat split. Qed.

(** C5. [clear()] without arguments throws "Wrong number of arguments"
    and makes no driver call. *)
Theorem Clear_without_arguments log :
  call Clear (args []) log =
    (Throws (TypeError_New "Wrong number of arguments"), log).
Proof. reflexivity. Qed.

(** C6. [clear()] with a first argument that is not a number throws the
    type error "Expected number" and makes no driver call. *)
Theorem Clear_rejects_non_number v rest log :
  IsNumber v = false ->
  call Clear (args (v :: rest)) log =
    (Throws (TypeError_New "Expected number"), log).
Proof.
  intros Hv. unfold call, Clear. rewrite Length_cons.
  cbn [arg args arguments nth]. rewrite Hv. reflexivity.
Qed.

Lemma Clear_rejects_non_number_witness :
  call Clear (args [JsString "red"; Number_New 1]) [] =
    (Throws (TypeError_New "Expected number"), []).
Proof.
  apply (Clear_rejects_non_number (JsString "red") [Number_New 1] []).
  reflexivity.
Defined.

(** C7. For every number [v] passed to [clear()], the colour forwarded to
    the driver clear routine is the unsigned 32-bit value of [v] reduced
    modulo 256, and the call returns; [clear(256)] forwards colour 0. *)
Theorem Clear_truncates_to_uint8 d rest log :
  0 <= Number.Uint32Value d < 2 ^ 32
  /\ call Clear (args (JsNumber d :: rest)) log =
       (Returns JsNull,
        log ++ [EPD_7IN3E_Clear_called (Number.Uint32Value d mod 256)])
  /\ call Clear (args (Number_New 256 :: rest)) log =
       (Returns JsNull, log ++ [EPD_7IN3E_Clear_called 0]).
Proof.
  split; [apply Z.mod_pos_bound; lia|].
  split; [apply Clear_number|].
  unfold Number_New. rewrite Clear_number. reflexivity.
Qed.

(** C8. When the hardware init reports a non-zero status, [init()] makes
    one driver call, the hardware init itself: the panel init
    [EPD_7IN3E_Init] is not called. *)
Theorem Init_failure_skips_panel_init status info log :
  status log <> 0 ->
  exists made,
    snd (call (Init status) info log) = log ++ made
    /\ made = [DEV_Module_Init_called]
    /\ ~ In EPD_7IN3E_Init_called made.
Proof.
  intros Hnz. exists [DEV_Module_Init_called].
  rewrite Init_call.
  destruct (Z.eqb_spec (status log) 0) as [Hz|_]; [contradiction|].
  split; [reflexivity|]. split; [reflexivity|].
  intros [Heq|[]]. discriminate Heq.
Qed.

Lemma Init_failure_skips_panel_init_witness :
  exists made,
    snd (call (Init (fun _ => 1)) (args []) [EPD_7IN3E_Sleep_called])
      = [EPD_7IN3E_Sleep_called] ++ made
    /\ made = [DEV_Module_Init_called]
    /\ ~ In EPD_7IN3E_Init_called made.
Proof.
  apply (Init_failure_skips_panel_init (fun _ => 1) (args [])
           [EPD_7IN3E_Sleep_called]).
  lia.
Defined.

(** ** The accessors and the colour table over the life of a process *)

(** No call of a native function changes the exports object. *)
Lemma invoke_exports W H status f info p :
  exports (snd (invoke W H status f info p)) = exports p.
Proof.
  unfold invoke.
  destruct (call (native W H status f) info (hardware p)). reflexivity.
Qed.

Lemma run_exports W H status calls p :
  exports (run W H status calls p) = exports p.
Proof.
  revert p. induction calls as [|[f info] calls IH]; intros p.
  - reflexivity.
  - cbn [run]. rewrite IH. apply invoke_exports.
Qed.

(** An accessor returns its constant and leaves the process as it is. *)
Lemma invoke_accessor W H status f info p v :
  (forall log, call (native W H status f) info log = (Returns v, log)) ->
  invoke W H status f info p = (Returns v, p).
Proof.
  intros Hf. unfold invoke. rewrite Hf. destruct p. reflexivity.
Qed.

Lemma read_color_load BLACK WHITE YELLOW RED BLUE GREEN log key :
  read_color (load BLACK WHITE YELLOW RED BLUE GREEN log) key =
    Get (JsObject (CreateColorConstants BLACK WHITE YELLOW RED BLUE GREEN))
        key.
Proof.
  unfold read_color, load, InitAll, Set_. cbn [exports].
  rewrite lookup_insert_eq. reflexivity.
Qed.

(** The six entries of the colour table. *)
Lemma CreateColorConstants_lookup BLACK WHITE YELLOW RED BLUE GREEN :
  let colors := CreateColorConstants BLACK WHITE YELLOW RED BLUE GREEN in
  colors !! "BLACK" = Some (Number_New BLACK)
  /\ colors !! "WHITE" = Some (Number_New WHITE)
  /\ colors !! "YELLOW" = Some (Number_New YELLOW)
  /\ colors !! "RED" = Some (Number_New RED)
  /\ colors !! "BLUE" = Some (Number_New BLUE)
  /\ colors !! "GREEN" = Some (Number_New GREEN).
Proof.
  unfold CreateColorConstants, Set_. cbv zeta.
  repeat split; by simplify_map_eq.
Qed.

(** C9. Whatever calls the process has made since it loaded the addon,
    and whatever the arguments, [getWidth()], [getHeight()] and
    [getBufferSize()] return the constants of the vendor header and the
    size derived from them and change nothing; and every read of a colour
    in [Colors] gives the number it gave when the addon was loaded. *)
Theorem accessors_and_colors_are_constant
    W H BLACK WHITE YELLOW RED BLUE GREEN status calls log info :
  let p := run W H status calls
             (load BLACK WHITE YELLOW RED BLUE GREEN log) in
  invoke W H status FnGetWidth info p = (Returns (Number_New W), p)
  /\ invoke W H status FnGetHeight info p = (Returns (Number_New H), p)
  /\ invoke W H status FnGetBufferSize info p =
       (Returns (Number_New (expected_size W H)), p)
  /\ (forall key,
        read_color p key =
          read_color (load BLACK WHITE YELLOW RED BLUE GREEN log) key)
  /\ read_color p "BLACK" = Number_New BLACK
  /\ read_color p "WHITE" = Number_New WHITE
  /\ read_color p "YELLOW" = Number_New YELLOW
  /\ read_color p "RED" = Number_New RED
  /\ read_color p "BLUE" = Number_New BLUE
  /\ read_color p "GREEN" = Number_New GREEN.
Proof.
  intros p.
  assert (Hread : forall key,
            read_color p key =
              read_color (load BLACK WHITE YELLOW RED BLUE GREEN log) key).
  { intros key. unfold read_color, p. now rewrite run_exports. }
  pose proof (CreateColorConstants_lookup BLACK WHITE YELLOW RED BLUE GREEN)
    as (Hk & Hw & Hy & Hr & Hb & Hg).
  split; [now apply invoke_accessor|].
  split; [now apply invoke_accessor|].
  split; [now apply invoke_accessor|].
  split; [exact Hread|].
  rewrite !Hread, !read_color_load. cbn [Get].
  rewrite Hk, Hw, Hy, Hr, Hb, Hg. repeat split; reflexivity.
Qed.

(** C10. The object exported as [Colors] is the one that
    [CreateColorConstants] builds; its keys are exactly BLACK, WHITE,
    YELLOW, RED, BLUE and GREEN, and each is bound to the number of the
    colour code that the vendor header gives it. *)
Theorem Colors_has_exactly_six_constants
    BLACK WHITE YELLOW RED BLUE GREEN exports0 :
  let colors := CreateColorConstants BLACK WHITE YELLOW RED BLUE GREEN in
  InitAll BLACK WHITE YELLOW RED BLUE GREEN exports0 !! "Colors"
    = Some (JsObject colors)
  /\ dom colors
     = ({[ "BLACK"; "WHITE"; "YELLOW"; "RED"; "BLUE"; "GREEN" ]} : gset string)
  /\ colors !! "BLACK" = Some (Number_New BLACK)
  /\ colors !! "WHITE" = Some (Number_New WHITE)
  /\ colors !! "YELLOW" = Some (Number_New YELLOW)
  /\ colors !! "RED" = Some (Number_New RED)
  /\ colors !! "BLUE" = Some (Number_New BLUE)
  /\ colors !! "GREEN" = Some (Number_New GREEN).
Proof.
  intros colors.
  split; [unfold InitAll, Set_; cbv zeta; apply lookup_insert_eq|].
  split; [|apply CreateColorConstants_lookup].
  unfold colors, CreateColorConstants, Set_. cbv zeta.
  rewrite !dom_insert_L, dom_empty_L. set_solver.
Qed.

(** ** Every native function, on every argument list *)

(** The outcome of one call, by the function called and the shape of its
    arguments. *)
Lemma call_native W H status f info log :
  call (native W H status f) info log =
    match f with
    | FnInit =>
        if status log =? 0
        then (Returns JsNull,
              log ++ [DEV_Module_Init_called; EPD_7IN3E_Init_called])
        else (Throws (Error_New "Failed to initialize e-Paper module"),
              log ++ [DEV_Module_Init_called])
    | FnClear =>
        match arguments info with
        | [] => (Throws (TypeError_New "Wrong number of arguments"), log)
        | JsNumber d :: _ =>
            (Returns JsNull,
             log ++ [EPD_7IN3E_Clear_called (Number.Uint32Value d mod 256)])
        | _ :: _ => (Throws (TypeError_New "Expected number"), log)
        end
    | FnDisplay =>
        match arguments info with
        | [] => (Throws (TypeError_New "Wrong number of arguments"), log)
        | JsBuffer data :: _ =>
            if Z.of_nat (length data) =? expected_size W H
            then (Returns JsNull, log ++ [EPD_7IN3E_Display_called data])
            else (Throws (Error_New ("Buffer size mismatch. Expected "
                                       +:+ C.to_string (expected_size W H)
                                       +:+ " bytes")), log)
        | _ :: _ => (Throws (TypeError_New "Expected buffer"), log)
        end
    | FnShow7Block => (Returns JsNull, log ++ [EPD_7IN3E_Show7Block_called])
    | FnShow => (Returns JsNull, log ++ [EPD_7IN3E_Show_called])
    | FnSleep => (Returns JsNull, log ++ [EPD_7IN3E_Sleep_called])
    | FnExit => (Returns JsNull, log ++ [DEV_Module_Exit_called])
    | FnGetWidth => (Returns (Number_New W), log)
    | FnGetHeight => (Returns (Number_New H), log)
    | FnGetBufferSize => (Returns (Number_New (expected_size W H)), log)
    end.
Proof.
  destruct f; cbn [native]; try reflexivity.
  - apply Init_call.
  - destruct info as [[|v rest]]; [reflexivity|].
    change {| arguments := v :: rest |} with (args (v :: rest)).
    cbn [arguments args].
    destruct v; try apply Clear_number;
      unfold call, Clear; rewrite Length_cons; reflexivity.
  - destruct info as [[|v rest]]; [reflexivity|].
    change {| arguments := v :: rest |} with (args (v :: rest)).
    cbn [arguments args].
    destruct v; try apply Display_buffer;
      unfold call, Display; rewrite Length_cons; reflexivity.
Qed.

(** X1. [display()] without arguments throws the type error "Wrong number
    of arguments" and makes no driver call. *)
Theorem Display_without_arguments W H log :
  call (Display W H) (args []) log =
    (Throws (TypeError_New "Wrong number of arguments"), log).
Proof. reflexivity. Qed.

(** X2. [display()] with a first argument that is not a buffer throws the
    type error "Expected buffer" and makes no driver call, whatever the
    header's geometry and whatever follows the first argument. *)
Theorem Display_rejects_non_buffer W H v rest log :
  IsBuffer v = false ->
  call (Display W H) (args (v :: rest)) log =
    (Throws (TypeError_New "Expected buffer"), log).
Proof.
  intros Hv. unfold call, Display. rewrite Length_cons.
  cbn [arg args arguments nth]. rewrite Hv. reflexivity.
Qed.

Lemma Display_rejects_non_buffer_witness :
  call (Display 800 480) (args [JsString "image.png"]) [] =
    (Throws (TypeError_New "Expected buffer"), []).
Proof.
  apply (Display_rejects_non_buffer 800 480 (JsString "image.png") [] []).
  reflexivity.
Defined.

(** X3. No native function looks past its first argument, and only
    [clear] and [display] look at any: a call with extra arguments does
    what the call with the first argument alone does, and the other eight
    functions do what they do without arguments. *)
Theorem extra_arguments_are_ignored W H status f info v rest log :
  call (native W H status f) (args (v :: rest)) log
    = call (native W H status f) (args [v]) log
  /\ (f <> FnClear -> f <> FnDisplay ->
      call (native W H status f) info log
        = call (native W H status f) (args []) log).
Proof.
  rewrite !call_native. split.
  - destruct f; try reflexivity; destruct v; reflexivity.
  - intros Hc Hd. destruct f; try reflexivity; contradiction.
Qed.

(** X4. [show7Block()], [show()], [sleep()] and [exit()] never throw:
    whatever the arguments and whatever happened before (no [init()] is
    asked for), each makes its one driver call and returns [null]. *)
Theorem passthroughs_never_throw info log :
  call Show7Block info log
    = (Returns JsNull, log ++ [EPD_7IN3E_Show7Block_called])
  /\ call Show info log = (Returns JsNull, log ++ [EPD_7IN3E_Show_called])
  /\ call Sleep info log = (Returns JsNull, log ++ [EPD_7IN3E_Sleep_called])
  /\ call Exit info log = (Returns JsNull, log ++ [DEV_Module_Exit_called]).
Proof. repeat split. Qed.

(** X5. The exceptions of the addon.  A call that throws is a call of
    [init], [clear] or [display]; [clear] and [display] throw before any
    driver call, with one of their two or three errors; [init] throws
    after the hardware init alone was called. *)
Theorem thrown_exceptions W H status f info log e log' :
  call (native W H status f) info log = (Throws e, log') ->
  (f = FnInit
   /\ e = Error_New "Failed to initialize e-Paper module"
   /\ status log <> 0
   /\ log' = log ++ [DEV_Module_Init_called])
  \/ (f = FnClear /\ log' = log
      /\ (e = TypeError_New "Wrong number of arguments"
            /\ arguments info = []
          \/ e = TypeError_New "Expected number"
            /\ IsNumber (arg info 0) = false))
  \/ (f = FnDisplay /\ log' = log
      /\ (e = TypeError_New "Wrong number of arguments"
            /\ arguments info = []
          \/ e = TypeError_New "Expected buffer"
            /\ IsBuffer (arg info 0) = false
          \/ e = Error_New ("Buffer size mismatch. Expected "
                              +:+ C.to_string (expected_size W H)
                              +:+ " bytes")
            /\ Z.of_nat (length (As_Buffer (arg info 0)))
                 <> expected_size W H)).
Proof.
  rewrite call_native. intros Hcall. destruct f; try discriminate Hcall.
  - destruct (Z.eqb_spec (status log) 0); [discriminate Hcall|].
    injection Hcall as <- <-. left. easy.
  - right; left.
    destruct info as [[|v rest]]; unfold arg; cbn [arguments nth] in *.
    + injection Hcall as <- <-. intuition.
    + destruct v; try discriminate Hcall; injection Hcall as <- <-;
        intuition.
  - right; right.
    destruct info as [[|v rest]]; unfold arg; cbn [arguments nth] in *.
    + injection Hcall as <- <-. intuition.
    + destruct v; try (injection Hcall as <- <-; intuition; fail).
      cbn [As_Buffer].
      destruct (Z.eqb_spec (Z.of_nat (length data)) (expected_size W H));
        [discriminate Hcall|].
      injection Hcall as <- <-. intuition.
Qed.

Lemma thrown_exceptions_witness :
  call (native 800 480 (fun _ => 0) FnClear) (args [JsNull]) [] =
    (Throws (TypeError_New "Expected number"), [])
  /\ IsNumber (arg (args [JsNull]) 0) = false.
Proof.
  assert (Hcall : call (native 800 480 (fun _ => 0) FnClear) (args [JsNull]) []
                  = (Throws (TypeError_New "Expected number"), []))
    by reflexivity.
  split; [exact Hcall|].
  destruct (thrown_exceptions 800 480 (fun _ => 0) FnClear (args [JsNull]) []
              (TypeError_New "Expected number") [] Hcall)
    as [(Hf & _)|[(_ & _ & [(He & _)|(_ & Hn)])|(Hf & _)]].
  - discriminate Hf.
  - discriminate He.
  - exact Hn.
  - discriminate Hf.
Defined.

(** ** Invariants of the driver log over a whole program *)

Lemma invoke_hardware W H status f info p :
  hardware (snd (invoke W H status f info p))
    = snd (call (native W H status f) info (hardware p)).
Proof.
  unfold invoke.
  destruct (call (native W H status f) info (hardware p)). reflexivity.
Qed.

(** What every single call preserves, every program preserves. *)
Lemma run_invariant W H status (P : list DriverCall -> Prop) :
  (forall f info log,
     P log -> P (snd (call (native W H status f) info log))) ->
  forall calls p, P (hardware p) -> P (hardware (run W H status calls p)).
Proof.
  intros Hstep calls.
  induction calls as [|[f info] calls IH]; intros p Hp; cbn [run].
  - exact Hp.
  - apply IH. rewrite invoke_hardware. now apply Hstep.
Qed.

Lemma driver_call_ok_step W H status f info log :
  Forall (driver_call_ok (expected_size W H)) log ->
  Forall (driver_call_ok (expected_size W H))
    (snd (call (native W H status f) info log)).
Proof.
  intros Hlog. rewrite call_native.
  assert (Hone : forall c, driver_call_ok (expected_size W H) c ->
            Forall (driver_call_ok (expected_size W H)) (log ++ [c])).
  { intros c Hc. apply Forall_app. split; [exact Hlog|].
    constructor; [exact Hc|constructor]. }
  destruct f; cbn [snd]; try assumption; try (apply Hone; exact I).
  - destruct (status log =? 0); cbn [snd].
    + apply Forall_app. split; [exact Hlog|]. repeat constructor.
    + apply Hone. exact I.
  - destruct (arguments info) as [|v rest]; [assumption|].
    destruct v; cbn [snd]; try assumption.
    apply Hone. cbn [driver_call_ok].
    pose proof (Z.mod_pos_bound (Number.Uint32Value d) 256 ltac:(lia)). lia.
  - destruct (arguments info) as [|v rest]; [assumption|].
    destruct v; cbn [snd]; try assumption.
    destruct (Z.eqb_spec (Z.of_nat (length data)) (expected_size W H));
      cbn [snd]; [|assumption].
    apply Hone. assumption.
Qed.

(** X6. Whatever program runs, the driver is only handed what the addon
    has checked: every image that reaches the display routine has exactly
    the number of bytes that the size computation gives, and every colour
    that reaches the clear routine is within 0..255.  (Holds for every
    header, and without any call of [init()].) *)
Theorem driver_calls_stay_well_formed W H status calls p :
  Forall (driver_call_ok (expected_size W H)) (hardware p) ->
  Forall (driver_call_ok (expected_size W H))
    (hardware (run W H status calls p)).
Proof.
  apply (run_invariant W H status
           (Forall (driver_call_ok (expected_size W H)))).
  intros f info log. apply driver_call_ok_step.
Qed.

Lemma driver_calls_stay_well_formed_witness :
  Forall (driver_call_ok (expected_size 3 2))
    (hardware
       (run 3 2 (fun _ => 0)
          [(FnClear, args [Number_New 300]);
           (FnDisplay, args [JsBuffer ["001"; "002"]%byte]);
           (FnDisplay, args [JsBuffer ["001"; "002"; "003"; "004"]%byte])]
          (load 0 1 2 3 5 6 []))).
Proof.
  apply (driver_calls_stay_well_formed 3 2 (fun _ => 0)).
  cbn [hardware load]. constructor.
Defined.

Lemma panel_init_guarded_snoc status log c :
  c <> EPD_7IN3E_Init_called ->
  panel_init_guarded status log -> panel_init_guarded status (log ++ [c]).
Proof.
  intros Hc Hlog i Hi.
  apply lookup_app_Some in Hi as [Hi|[_ Hi]].
  - destruct (Hlog i Hi) as (j & -> & Hj & Hs).
    exists j. split; [reflexivity|]. split.
    + now apply lookup_app_l_Some.
    + apply lookup_lt_Some in Hj. rewrite take_app_le by lia. exact Hs.
  - apply list_lookup_singleton_Some in Hi as [_ Heq]. congruence.
Qed.

Lemma panel_init_guarded_init status log :
  status log = 0 ->
  panel_init_guarded status log ->
  panel_init_guarded status
    (log ++ [DEV_Module_Init_called; EPD_7IN3E_Init_called]).
Proof.
  intros Hz Hlog i Hi.
  apply lookup_app_Some in Hi as [Hi|[Hle Hi]].
  - destruct (Hlog i Hi) as (j & -> & Hj & Hs).
    exists j. split; [reflexivity|]. split.
    + now apply lookup_app_l_Some.
    + apply lookup_lt_Some in Hj. rewrite take_app_le by lia. exact Hs.
  - destruct (i - length log)%nat as [|[|k]] eqn:Hk; try discriminate Hi.
    exists (length log). split; [lia|]. split.
    + apply list_lookup_middle. reflexivity.
    + rewrite take_app_length. exact Hz.
Qed.

Lemma panel_init_guarded_step W H status f info log :
  panel_init_guarded status log ->
  panel_init_guarded status (snd (call (native W H status f) info log)).
Proof.
  intros Hlog. rewrite call_native.
  destruct f; cbn [snd]; try assumption;
    try (apply panel_init_guarded_snoc; [discriminate|assumption]).
  - destruct (Z.eqb_spec (status log) 0); cbn [snd].
    + now apply panel_init_guarded_init.
    + apply panel_init_guarded_snoc; [discriminate|assumption].
  - destruct (arguments info) as [|v rest]; [assumption|].
    destruct v; cbn [snd]; try assumption.
    apply panel_init_guarded_snoc; [discriminate|assumption].
  - destruct (arguments info) as [|v rest]; [assumption|].
    destruct v; cbn [snd]; try assumption.
    destruct (Z.of_nat (length data) =? expected_size W H); cbn [snd];
      [|assumption].
    apply panel_init_guarded_snoc; [discriminate|assumption].
Qed.

(** X7. Whatever program runs, the panel init [EPD_7IN3E_Init] is only
    ever called right after a [DEV_Module_Init], and only when that
    hardware init reported status 0: no other function of the addon
    initialises the panel, and a failed hardware init is never followed by
    a panel init. *)
Theorem panel_init_stays_guarded W H status calls p :
  panel_init_guarded status (hardware p) ->
  panel_init_guarded status (hardware (run W H status calls p)).
Proof.
  apply (run_invariant W H status (panel_init_guarded status)).
  intros f info log. apply panel_init_guarded_step.
Qed.

Lemma panel_init_stays_guarded_witness :
  panel_init_guarded (fun log => (Z.of_nat (length log) + 1) mod 2)
    (hardware
       (run 3 2 (fun log => (Z.of_nat (length log) + 1) mod 2)
          [(FnInit, args []); (FnInit, args []); (FnShow, args [])]
          (load 0 1 2 3 5 6 []))).
Proof.
  apply (panel_init_stays_guarded 3 2).
  cbn [hardware load]. intros i Hi. destruct i; discriminate Hi.
Defined.

(** ** The addon keeps no state of its own *)

(** Closes a goal [exists c made, forall log, call ... log = (c, log ++ made)]
    once the shape of the arguments is known. *)
Ltac same_after_any_history :=
  eexists _, _; intros log; rewrite call_native;
  repeat match goal with
         | E : arguments _ = _ |- _ => rewrite E
         | E : (_ =? _) = _ |- _ => rewrite E
         end;
  first [ reflexivity | rewrite <- (app_nil_r log) at 1; reflexivity ].

(** X8. Apart from [init], whose result is the hardware's, what a native
    function does is decided by its arguments alone: the completion and
    the driver calls it makes are the same after any history.  In
    particular [clear], [display], [show], [sleep] work the same whether
    or not [init()] was ever called or succeeded. *)
Theorem calls_do_not_depend_on_history W H status f info :
  f <> FnInit ->
  exists c made, forall log,
    call (native W H status f) info log = (c, log ++ made).
Proof.
  intros Hf. destruct f; try contradiction; try same_after_any_history.
  - destruct (arguments info) as [|v rest] eqn:Hargs;
      [|destruct v]; same_after_any_history.
  - destruct (arguments info) as [|v rest] eqn:Hargs;
      [|destruct v]; try same_after_any_history.
    destruct (Z.of_nat (length data) =? expected_size W H) eqn:Hlen;
      same_after_any_history.
Qed.

Lemma calls_do_not_depend_on_history_witness :
  exists c made, forall log,
    call (native 800 480 (fun _ => 1) FnDisplay)
         (args [JsBuffer ["001"]%byte]) log
      = (c, log ++ made).
Proof.
  apply (calls_do_not_depend_on_history 800 480 (fun _ => 1) FnDisplay).
  discriminate.
Defined.

(** ** How the exported pieces fit together *)

(** X9. The colour constants are fit for [clear()]: when the header's
    colour codes are within 0..255, reading any of the six constants from
    [Colors], at any point of a program, and passing it to [clear()] calls
    the driver clear routine with the header's code itself. *)
Theorem Clear_of_color_constant
    W H BLACK WHITE YELLOW RED BLUE GREEN status calls log0 key code
    rest log :
  In (key, code) (color_codes BLACK WHITE YELLOW RED BLUE GREEN) ->
  0 <= code <= 255 ->
  let p := run W H status calls
             (load BLACK WHITE YELLOW RED BLUE GREEN log0) in
  call Clear (args (read_color p key :: rest)) log =
    (Returns JsNull, log ++ [EPD_7IN3E_Clear_called code]).
Proof.
  intros Hin Hcode p.
  assert (Hread : read_color p key = Number_New code).
  { unfold read_color, p. rewrite run_exports.
    fold (read_color (load BLACK WHITE YELLOW RED BLUE GREEN log0) key).
    rewrite read_color_load. cbn [Get].
    pose proof (CreateColorConstants_lookup
                  BLACK WHITE YELLOW RED BLUE GREEN)
      as (Hk & Hw & Hy & Hr & Hb & Hg).
    cbn [color_codes In] in Hin.
    destruct Hin as [[= <- <-]|[[= <- <-]|[[= <- <-]|[[= <- <-]|
                    [[= <- <-]|[[= <- <-]|[]]]]]]];
      [rewrite Hk|rewrite Hw|rewrite Hy|rewrite Hr|rewrite Hb|rewrite Hg];
      reflexivity. }
  rewrite Hread. unfold Number_New. rewrite Clear_number.
  rewrite (Uint32Value_low_byte (Number.of_Z code) code)
    by (apply of_Z_has_value; lia).
  rewrite Z.mod_small by lia. reflexivity.
Qed.

Lemma Clear_of_color_constant_witness :
  call Clear
    (args [read_color
             (run 800 480 (fun _ => 0) [(FnInit, args []); (FnShow, args [])]
                (load 0 1 2 3 5 6 []))
             "BLUE"])
    []
  = (Returns JsNull, [EPD_7IN3E_Clear_called 5]).
Proof.
  apply (Clear_of_color_constant 800 480 0 1 2 3 5 6 (fun _ => 0)
           [(FnInit, args []); (FnShow, args [])] [] "BLUE" 5 [] []).
  - cbn [color_codes In]. do 4 right. left. reflexivity.
  - lia.
Defined.

(** X10. A buffer of [getBufferSize()] bytes is what [display()] takes,
    for every header, also one whose size computation wraps around: at
    any point of a program [getBufferSize()] returns an integer [n] below
    2^32, and [display()] returns for a buffer exactly when the buffer has
    [n] bytes. *)
Theorem display_takes_what_getBufferSize_says
    W H BLACK WHITE YELLOW RED BLUE GREEN status calls log0 info data
    rest :
  let p := run W H status calls
             (load BLACK WHITE YELLOW RED BLUE GREEN log0) in
  exists n,
    returns_integer (fst (invoke W H status FnGetBufferSize info p)) n
    /\ 0 <= n < 2 ^ 32
    /\ (fst (invoke W H status FnDisplay (args (JsBuffer data :: rest)) p)
          = Returns JsNull
        <-> Z.of_nat (length data) = n).
Proof.
  intros p. exists (expected_size W H).
  assert (Hrange : 0 <= expected_size W H < 2 ^ 32)
    by (apply Z.mod_pos_bound; lia).
  split; [|split; [exact Hrange|]].
  - unfold invoke. rewrite call_native. cbn [fst].
    eexists. split; [reflexivity|]. apply of_Z_has_value. lia.
  - unfold invoke. rewrite call_native. cbn [arguments args].
    destruct (Z.eqb_spec (Z.of_nat (length data)) (expected_size W H));
      cbn [fst]; split; easy.
Qed.

(** X11. [InitAll] registers the ten native functions and the colour
    table under exactly eleven names, each name bound to its own function,
    and leaves every other property of the object it is given as it was. *)
Theorem InitAll_registers_eleven_names
    BLACK WHITE YELLOW RED BLUE GREEN exports0 :
  let exports := InitAll BLACK WHITE YELLOW RED BLUE GREEN exports0 in
  dom exports = exported_names ∪ dom exports0
  /\ exports !! "init" = Some (JsFunction FnInit)
  /\ exports !! "clear" = Some (JsFunction FnClear)
  /\ exports !! "show7Block" = Some (JsFunction FnShow7Block)
  /\ exports !! "show" = Some (JsFunction FnShow)
  /\ exports !! "display" = Some (JsFunction FnDisplay)
  /\ exports !! "sleep" = Some (JsFunction FnSleep)
  /\ exports !! "exit" = Some (JsFunction FnExit)
  /\ exports !! "getWidth" = Some (JsFunction FnGetWidth)
  /\ exports !! "getHeight" = Some (JsFunction FnGetHeight)
  /\ exports !! "getBufferSize" = Some (JsFunction FnGetBufferSize)
  /\ (forall key, key ∉ exported_names -> exports !! key = exports0 !! key).
Proof.
  intros exports. unfold exports, InitAll, Set_, exported_names. cbv zeta.
  split; [rewrite !dom_insert_L; set_solver|].
  repeat (split; [by simplify_map_eq|]).
  intros key Hkey.
  rewrite !lookup_insert_ne by set_solver. reflexivity.
Qed.

(** ** Edge cases of the size computation and of the colour conversion *)

(** X12. On a panel geometry the computed size packs two pixels per byte
    row by row: twice the size is [W * H] when the width is even and
    [(W + 1) * H] when it is odd (one padding half-byte per row), so the
    buffer always holds every pixel. *)
Theorem expected_size_packs_two_pixels_per_byte W H :
  panel_geometry W H ->
  2 * expected_size W H = (W + W mod 2) * H
  /\ W * H <= 2 * expected_size W H <= (W + 1) * H.
Proof.
  intros Hgeo. rewrite (expected_size_spec W H Hgeo).
  destruct Hgeo as (HW & HH & _).
  unfold spec_buffer_size, ceil_half.
  pose proof (Z.div_mod W 2 ltac:(lia)) as Hd.
  pose proof (Z.mod_pos_bound W 2 ltac:(lia)) as Hm.
  pose proof (Z.div_mod (- W) 2 ltac:(lia)) as Hd'.
  pose proof (Z.mod_pos_bound (- W) 2 ltac:(lia)) as Hm'.
  assert (Hc : 2 * - (- W / 2) = W + W mod 2) by lia.
  split; [nia|]. split; nia.
Qed.

Lemma expected_size_packs_two_pixels_per_byte_witness :
  2 * expected_size 3 2 = (3 + 3 mod 2) * 2
  /\ 3 * 2 <= 2 * expected_size 3 2 <= (3 + 1) * 2.
Proof.
  apply (expected_size_packs_two_pixels_per_byte 3 2).
  vm_compute. intuition congruence.
Defined.

(** X13. [clear()] does not reject the numbers that are no colour at all:
    NaN, the infinities and the zeros pass the number check, and the
    driver clear routine is called with colour 0. *)
Theorem Clear_of_non_finite_number d rest log :
  (forall s m e, d <> S754_finite s m e) ->
  call Clear (args (JsNumber d :: rest)) log =
    (Returns JsNull, log ++ [EPD_7IN3E_Clear_called 0]).
Proof.
  intros Hd. rewrite Clear_number.
  destruct d as [s|s| |s m e]; try reflexivity.
  exfalso. exact (Hd s m e eq_refl).
Qed.

Lemma Clear_of_non_finite_number_witness :
  call Clear (args [JsNumber S754_nan]) [] =
    (Returns JsNull, [EPD_7IN3E_Clear_called 0]).
Proof.
  apply (Clear_of_non_finite_number S754_nan [] []).
  intros s m e. discriminate.
Defined.
